(** * Template MCP server: the three registered callables and their bindings

    A shallow embedding of [src/template_uv_mcp_server/server.py].  The file
    declares one tool ([hello]), one resource ([get_info], bound to the URI
    [template://info]) and one prompt ([greeting_prompt]) on a server object
    [mcp].  Python strings are [string], keyword-argument dictionaries are
    [gmap string string], raised exceptions are the left summand of
    [Py.result]. *)

From stdpp Require Import base option strings gmap list.

Local Open Scope string_scope.

(** ** Python: exceptions, signatures and keyword calls *)

Module Py.

Inductive exn : Type :=
| TypeError (msg : string)
| NameError (name : string).

(** [inl e]: the call raised [e]; [inr v]: it returned [v]. *)
Definition result (A : Type) : Type := (exn + A)%type.

Definition raise {A} (e : exn) : result A := inl e.

(** Sequencing: an exception raised by the first computation propagates. *)
#[export] Instance result_ret : MRet result := λ A v, inr v.
#[export] Instance result_bind : MBind result := λ A B k m,
  match m with
  | inl e => inl e
  | inr v => k v
  end.

(** A parameter of a [def]: its name and, when the signature gives one,
    its default value. *)
Record param : Type := Param {
  param_name : string;
  param_default : option string
}.

(** A function object: [__name__], [__doc__], the signature and the body,
    which runs on the dictionary of local variables. *)
Record function : Type := Function {
  fn_name : string;
  fn_doc : string;
  fn_params : list param;
  fn_code : gmap string string → result string
}.

(** Reading a local variable; an unbound one raises [NameError]. *)
Definition load (locals : gmap string string) (x : string) : result string :=
  match locals !! x with
  | Some v => mret v
  | None => raise (NameError x)
  end.

(** The keyword arguments that no parameter of the signature takes. *)
Definition unexpected (ps : list param) (kw : gmap string string)
  : gmap string string :=
  foldr (λ p m, delete (param_name p) m) kw ps.

(** Binding of the parameters: the passed value, else the default, else
    [TypeError]. *)
Fixpoint bind_params (ps : list param) (kw : gmap string string)
  : result (gmap string string) :=
  match ps with
  | [] => mret ∅
  | p :: ps' =>
      match kw !! param_name p, param_default p with
      | Some v, _ | None, Some v =>
          locals ← bind_params ps' kw;
          mret (<[param_name p := v]> locals)
      | None, None =>
          raise (TypeError ("missing required argument: " +:+ param_name p))
      end
  end.

(** Calling [f] with the keyword dictionary [kw] unpacked. *)
Definition call (f : function) (kw : gmap string string) : result string :=
  if decide (unexpected (fn_params f) kw = ∅) then
    locals ← bind_params (fn_params f) kw;
    fn_code f locals
  else raise (TypeError "got an unexpected keyword argument").

End Py.

Import Py.

(** ** server.py: the three functions *)

(** [return f"Hello, {name}!"] *)
Definition hello (name : string) : string := "Hello, " +:+ name +:+ "!".

(** [return "This is a template MCP server. Customize it for your needs!"] *)
Definition get_info : string :=
  "This is a template MCP server. Customize it for your needs!".

(** [return f"Please write a friendly greeting for {name}."] *)
Definition greeting_prompt (name : string) : string :=
  "Please write a friendly greeting for " +:+ name +:+ ".".

(** [def hello(name: str = "World") -> str] with its docstring. *)
Definition hello_def : function := {|
  fn_name := "hello";
  fn_doc := "Say hello to someone.";
  fn_params := [Param "name" (Some "World")];
  fn_code := λ locals, name ← load locals "name"; mret (hello name)
|}.

(** [def get_info() -> str] with its docstring. *)
Definition get_info_def : function := {|
  fn_name := "get_info";
  fn_doc := "Get template information.";
  fn_params := [];
  fn_code := λ _, mret get_info
|}.

(** [def greeting_prompt(name: str) -> str] with its docstring. *)
Definition greeting_prompt_def : function := {|
  fn_name := "greeting_prompt";
  fn_doc := "Generate a greeting prompt.";
  fn_params := [Param "name" None];
  fn_code := λ locals, name ← load locals "name"; mret (greeting_prompt name)
|}.

(** ** The protocol runtime *)

Module Runtime.

(** Modelled from the spec: the content of a tool result or of a prompt
    message, as the imported [mcp.types] gives it; the runtime is a library
    this repository imports and does not implement. *)
Inductive Content : Type :=
| TextContent (text : string)
| ImageContent (data mimeType : string).

(** Modelled from the spec: the role tag of a prompt message. *)
Inductive Role : Type := user | assistant.

(** Modelled from the spec: a role-tagged message of a prompt result. *)
Record PromptMessage : Type := {
  role : Role;
  content : Content
}.

(** Modelled from the spec: one item of a resource read. *)
Record TextResourceContents : Type := {
  contents_uri : string;
  contents_text : string
}.

(** Modelled from the spec: what listing shows of a tool. *)
Record Tool : Type := {
  tool_name : string;
  tool_description : string
}.

(** Modelled from the spec: what listing shows of a resource. *)
Record Resource : Type := {
  resource_uri : string;
  resource_description : string
}.

(** Modelled from the spec: an entry of a prompt's [arg_spec]. *)
Record PromptArgument : Type := {
  arg_name : string;
  arg_required : bool
}.

(** Modelled from the spec: what listing shows of a prompt. *)
Record Prompt : Type := {
  prompt_name : string;
  prompt_description : string;
  prompt_arguments : list PromptArgument
}.

(** Modelled from the spec: the server object, three registries in
    registration order, each entry with the function bound to it. *)
Record server : Type := {
  server_name : string;
  tools : list (Tool * function);
  resources : list (Resource * function);
  prompts : list (Prompt * function)
}.

(** Modelled from the spec: [FastMCP(name)], a server with nothing
    registered. *)
Definition FastMCP (name : string) : server :=
  {| server_name := name; tools := []; resources := []; prompts := [] |}.

(** Modelled from the spec: [register_tool(name, fn, description)]. *)
Definition register_tool (name : string) (fn : function) (description : string)
    (srv : server) : server :=
  {| server_name := server_name srv;
     tools := tools srv ++ [({| tool_name := name;
                                tool_description := description |}, fn)];
     resources := resources srv;
     prompts := prompts srv |}.

(** Modelled from the spec: [register_resource(uri, fn, description)]. *)
Definition register_resource (uri : string) (fn : function)
    (description : string) (srv : server) : server :=
  {| server_name := server_name srv;
     tools := tools srv;
     resources := resources srv ++ [({| resource_uri := uri;
                                        resource_description := description |}, fn)];
     prompts := prompts srv |}.

(** Modelled from the spec: [register_prompt(name, fn, description,
    arg_spec)]. *)
Definition register_prompt (name : string) (fn : function)
    (description : string) (arg_spec : list PromptArgument) (srv : server)
    : server :=
  {| server_name := server_name srv;
     tools := tools srv;
     resources := resources srv;
     prompts := prompts srv ++ [({| prompt_name := name;
                                    prompt_description := description;
                                    prompt_arguments := arg_spec |}, fn)] |}.

(** Modelled from the spec: the argument list a prompt gets from the
    signature of its function, one entry per parameter, required when the
    parameter has no default. *)
Definition arg_spec_of (fn : function) : list PromptArgument :=
  map (λ p, {| arg_name := param_name p;
               arg_required := bool_decide (param_default p = None) |})
      (fn_params fn).

(** Modelled from the spec: the decorator [@mcp.tool()], which registers
    the function under its own name with its docstring as description. *)
Definition tool (fn : function) : server → server :=
  register_tool (fn_name fn) fn (fn_doc fn).

(** Modelled from the spec: the decorator [@mcp.resource(uri)]. *)
Definition resource (uri : string) (fn : function) : server → server :=
  register_resource uri fn (fn_doc fn).

(** Modelled from the spec: the decorator [@mcp.prompt()]. *)
Definition prompt (fn : function) : server → server :=
  register_prompt (fn_name fn) fn (fn_doc fn) (arg_spec_of fn).

(** Modelled from the spec: the first entry of a registry whose key is
    [k]. *)
Definition registered {A} (key : A → string) (k : string)
    (reg : list (A * function)) : option (A * function) :=
  head (filter (λ e, key e.1 = k) reg).

(** Modelled from the spec: why an operation failed; how the runtime
    reports it to the client is not modelled. *)
Inductive failure : Type :=
| UnknownTool (name : string)
| UnknownResource (uri : string)
| UnknownPrompt (name : string)
| Raised (e : exn).

(** Modelled from the spec: the operations of a session object. *)
Inductive request : Type :=
| ListTools
| CallTool (name : string) (arguments : gmap string string)
| ListResources
| ReadResource (uri : string)
| ListPrompts
| GetPrompt (name : string) (arguments : gmap string string).

(** Modelled from the spec: the results of those operations. *)
Inductive response : Type :=
| ListToolsResult (ts : list Tool)
| CallToolResult (content : list Content)
| ListResourcesResult (rs : list Resource)
| ReadResourceResult (contents : list TextResourceContents)
| ListPromptsResult (ps : list Prompt)
| GetPromptResult (messages : list PromptMessage)
| Failure (f : failure).

(** Modelled from the spec: [list_tools()]. *)
Definition list_tools (srv : server) : list Tool := (tools srv).*1.

(** Modelled from the spec: [call_tool(name, args)]; the string a tool
    returns becomes the one text item of the result. *)
Definition call_tool (srv : server) (name : string)
    (arguments : gmap string string) : response :=
  match registered tool_name name (tools srv) with
  | None => Failure (UnknownTool name)
  | Some (_, fn) =>
      match call fn arguments with
      | inl e => Failure (Raised e)
      | inr text => CallToolResult [TextContent text]
      end
  end.

(** Modelled from the spec: [list_resources()]. *)
Definition list_resources (srv : server) : list Resource := (resources srv).*1.

(** Modelled from the spec: [read_resource(uri)]; the function bound to the
    URI is called without arguments. *)
Definition read_resource (srv : server) (uri : string) : response :=
  match registered resource_uri uri (resources srv) with
  | None => Failure (UnknownResource uri)
  | Some (_, fn) =>
      match call fn ∅ with
      | inl e => Failure (Raised e)
      | inr text =>
          ReadResourceResult [{| contents_uri := uri; contents_text := text |}]
      end
  end.

(** Modelled from the spec: [list_prompts()]. *)
Definition list_prompts (srv : server) : list Prompt := (prompts srv).*1.

(** Modelled from the spec: [get_prompt(name, args)]; the string a prompt
    function returns becomes one message of role [user]. *)
Definition get_prompt (srv : server) (name : string)
    (arguments : gmap string string) : response :=
  match registered prompt_name name (prompts srv) with
  | None => Failure (UnknownPrompt name)
  | Some (_, fn) =>
      match call fn arguments with
      | inl e => Failure (Raised e)
      | inr text =>
          GetPromptResult [{| role := user; content := TextContent text |}]
      end
  end.

(** Modelled from the spec: the server handling one request of a session;
    it yields the response and the server object as the request leaves
    it. *)
Definition handle (srv : server) (req : request) : response * server :=
  match req with
  | ListTools => (ListToolsResult (list_tools srv), srv)
  | CallTool name arguments => (call_tool srv name arguments, srv)
  | ListResources => (ListResourcesResult (list_resources srv), srv)
  | ReadResource uri => (read_resource srv uri, srv)
  | ListPrompts => (ListPromptsResult (list_prompts srv), srv)
  | GetPrompt name arguments => (get_prompt srv name arguments, srv)
  end.

(** Modelled from the spec: one session, its requests handled in order. *)
Fixpoint serve (srv : server) (reqs : list request) : list response * server :=
  match reqs with
  | [] => ([], srv)
  | req :: reqs' =>
      let '(resp, srv') := handle srv req in
      let '(resps, srv'') := serve srv' reqs' in
      (resp :: resps, srv'')
  end.

(** Modelled from the spec: sessions opened one after another on the same
    server object. *)
Definition serve_all (srv : server) (sessions : list (list request)) : server :=
  foldl (λ s reqs, (serve s reqs).2) srv sessions.

End Runtime.

Import Runtime.

(** ** server.py: the module body *)

(** [mcp = FastMCP("Template Server")] followed by the three decorated
    definitions, in source order. *)
Definition mcp : server :=
  let mcp := FastMCP "Template Server" in
  let mcp := tool hello_def mcp in
  let mcp := resource "template://info" get_info_def mcp in
  prompt greeting_prompt_def mcp.

(** The server object a request can meet: [mcp] after any number of
    earlier sessions and any requests already made in the current one. *)
Definition mcp_after (sessions : list (list request)) (reqs : list request)
    : server :=
  (serve (serve_all mcp sessions) reqs).2.

(** ** The functions run against mutable state *)

Module Effects.

(** A function as the interpreter runs it: besides its local variables the
    body reaches the module's global variables, which it may read and
    assign, and it hands them back as it leaves them. *)
Record procedure : Type := Procedure {
  pr_name : string;
  pr_doc : string;
  pr_params : list param;
  pr_code : gmap string string → gmap string string →
            result string * gmap string string
}.

(** Calling [p] with the keyword dictionary [kw] unpacked, the globals being
    [globals]; a call that fails while binding its arguments has not run
    the body. *)
Definition invoke (p : procedure) (globals kw : gmap string string)
    : result string * gmap string string :=
  if decide (unexpected (pr_params p) kw = ∅) then
    match bind_params (pr_params p) kw with
    | inl e => (inl e, globals)
    | inr locals => pr_code p globals locals
    end
  else (raise (TypeError "got an unexpected keyword argument"), globals).

End Effects.

Import Effects.

(** [def hello(name: str = "World") -> str]: the body reads the local
    [name], reads no global and assigns none. *)
Definition hello_proc : procedure := {|
  pr_name := "hello";
  pr_doc := "Say hello to someone.";
  pr_params := [Param "name" (Some "World")];
  pr_code := λ globals locals,
    (name ← load locals "name"; mret (hello name), globals)
|}.

(** [def get_info() -> str]: the body returns a literal. *)
Definition get_info_proc : procedure := {|
  pr_name := "get_info";
  pr_doc := "Get template information.";
  pr_params := [];
  pr_code := λ globals _, (mret get_info, globals)
|}.

(** [def greeting_prompt(name: str) -> str]: the body reads the local
    [name], reads no global and assigns none. *)
Definition greeting_prompt_proc : procedure := {|
  pr_name := "greeting_prompt";
  pr_doc := "Generate a greeting prompt.";
  pr_params := [Param "name" None];
  pr_code := λ globals locals,
    (name ← load locals "name"; mret (greeting_prompt name), globals)
|}.

(** ** The protocol runtime over mutable state *)

Module Stateful.

(** Modelled from the spec: the running process, that is the three
    registries of the server object and the module's global variables. *)
Record process : Type := {
  p_tools : list (Tool * procedure);
  p_resources : list (Resource * procedure);
  p_prompts : list (Prompt * procedure);
  p_globals : gmap string string
}.

(** Modelled from the spec: the process with its globals replaced. *)
Definition with_globals (globals : gmap string string) (w : process) : process :=
  {| p_tools := p_tools w; p_resources := p_resources w;
     p_prompts := p_prompts w; p_globals := globals |}.

(** Modelled from the spec: [FastMCP(name)] in a process whose globals are
    [globals]; nothing is registered. *)
Definition start (globals : gmap string string) : process :=
  {| p_tools := []; p_resources := []; p_prompts := [];
     p_globals := globals |}.

(** Modelled from the spec: the decorator [@mcp.tool()]. *)
Definition tool (p : procedure) (w : process) : process :=
  {| p_tools := p_tools w ++ [({| tool_name := pr_name p;
                                  tool_description := pr_doc p |}, p)];
     p_resources := p_resources w;
     p_prompts := p_prompts w;
     p_globals := p_globals w |}.

(** Modelled from the spec: the decorator [@mcp.resource(uri)]. *)
Definition resource (uri : string) (p : procedure) (w : process) : process :=
  {| p_tools := p_tools w;
     p_resources := p_resources w ++ [({| resource_uri := uri;
                                          resource_description := pr_doc p |}, p)];
     p_prompts := p_prompts w;
     p_globals := p_globals w |}.

(** Modelled from the spec: the decorator [@mcp.prompt()]; an argument is
    required when its parameter has no default. *)
Definition prompt (p : procedure) (w : process) : process :=
  {| p_tools := p_tools w;
     p_resources := p_resources w;
     p_prompts := p_prompts w ++
       [({| prompt_name := pr_name p;
            prompt_description := pr_doc p;
            prompt_arguments :=
              map (λ q, {| arg_name := param_name q;
                           arg_required := bool_decide (param_default q = None) |})
                  (pr_params p) |}, p)];
     p_globals := p_globals w |}.

(** Modelled from the spec: the first entry of a registry whose key is
    [k]. *)
Definition entry {A} (key : A → string) (k : string)
    (reg : list (A * procedure)) : option (A * procedure) :=
  head (filter (λ e, key e.1 = k) reg).

(** Modelled from the spec: running the procedure of an entry on the
    globals of the process; [wrap] turns the returned string into the
    result of the operation, and the globals are kept as the body leaves
    them. *)
Definition run (w : process) (p : procedure) (kw : gmap string string)
    (wrap : string → response) : response * process :=
  let '(r, globals) := invoke p (p_globals w) kw in
  (match r with
   | inl e => Failure (Raised e)
   | inr text => wrap text
   end, with_globals globals w).

(** Modelled from the spec: the process handling one request of a
    session. *)
Definition handle (w : process) (req : request) : response * process :=
  match req with
  | ListTools => (ListToolsResult (p_tools w).*1, w)
  | CallTool name arguments =>
      match entry tool_name name (p_tools w) with
      | None => (Failure (UnknownTool name), w)
      | Some (_, p) =>
          run w p arguments (λ text, CallToolResult [TextContent text])
      end
  | ListResources => (ListResourcesResult (p_resources w).*1, w)
  | ReadResource uri =>
      match entry resource_uri uri (p_resources w) with
      | None => (Failure (UnknownResource uri), w)
      | Some (_, p) =>
          run w p ∅ (λ text,
            ReadResourceResult [{| contents_uri := uri; contents_text := text |}])
      end
  | ListPrompts => (ListPromptsResult (p_prompts w).*1, w)
  | GetPrompt name arguments =>
      match entry prompt_name name (p_prompts w) with
      | None => (Failure (UnknownPrompt name), w)
      | Some (_, p) =>
          run w p arguments (λ text,
            GetPromptResult [{| role := user; content := TextContent text |}])
      end
  end.

(** Modelled from the spec: one session, its requests handled in order. *)
Fixpoint serve (w : process) (reqs : list request) : list response * process :=
  match reqs with
  | [] => ([], w)
  | req :: reqs' =>
      let '(resp, w') := handle w req in
      let '(resps, w'') := serve w' reqs' in
      (resp :: resps, w'')
  end.

(** Modelled from the spec: sessions opened one after another on the same
    process. *)
Definition serve_all (w : process) (sessions : list (list request)) : process :=
  foldl (λ w' reqs, (serve w' reqs).2) w sessions.

End Stateful.

(** The module body of [server.py] run in a process whose globals are
    [globals]. *)
Definition mcp_process (globals : gmap string string) : Stateful.process :=
  let mcp := Stateful.start globals in
  let mcp := Stateful.tool hello_proc mcp in
  let mcp := Stateful.resource "template://info" get_info_proc mcp in
  Stateful.prompt greeting_prompt_proc mcp.

(** The process a request can meet: started with the globals [globals],
    after any number of earlier sessions and any requests already made in
    the current one. *)
Definition process_after (globals : gmap string string)
    (sessions : list (list request)) (reqs : list request) : Stateful.process :=
  (Stateful.serve (Stateful.serve_all (mcp_process globals) sessions) reqs).2.

(** * Properties *)

(** ** Keyword calls of a one-parameter function *)

Section KeywordCalls.

Variable f : function.
Variable x : string.
Variable d : option string.
Hypothesis Hsig : fn_params f = [Param x d].

Lemma call_keyword (v : string) : call f {[x := v]} = fn_code f {[x := v]}.
Proof.
  unfold call, unexpected. rewrite Hsig. simpl.
  rewrite delete_singleton_eq, decide_True by done.
  rewrite lookup_singleton_eq. simpl.
  by rewrite insert_empty.
Qed.

Lemma call_default (v : string) :
  d = Some v → call f ∅ = fn_code f {[x := v]}.
Proof.
  intros ->. unfold call, unexpected. rewrite Hsig. simpl.
  rewrite delete_empty, decide_True by done.
  rewrite lookup_empty. simpl.
  by rewrite insert_empty.
Qed.

Lemma call_missing :
  d = None →
  call f ∅ = raise (TypeError ("missing required argument: " +:+ x)).
Proof.
  intros ->. unfold call, unexpected. rewrite Hsig. simpl.
  rewrite delete_empty, decide_True by done.
  by rewrite lookup_empty.
Qed.

End KeywordCalls.

Lemma load_singleton (x v : string) : load {[x := v]} x = inr v.
Proof. unfold load. by rewrite lookup_singleton_eq. Qed.

Lemma call_hello (s : string) : call hello_def {["name" := s]} = inr (hello s).
Proof.
  rewrite (call_keyword hello_def "name" (Some "World")) by done.
  simpl. by rewrite load_singleton.
Qed.

Lemma call_hello_omitted : call hello_def ∅ = inr (hello "World").
Proof.
  rewrite (call_default hello_def "name" (Some "World") eq_refl "World") by done.
  simpl. by rewrite load_singleton.
Qed.

Lemma call_greeting_prompt (s : string) :
  call greeting_prompt_def {["name" := s]} = inr (greeting_prompt s).
Proof.
  rewrite (call_keyword greeting_prompt_def "name" None) by done.
  simpl. by rewrite load_singleton.
Qed.

Lemma call_get_info : call get_info_def ∅ = inr get_info.
Proof. reflexivity. Qed.

(** ** What the module body registers *)

Lemma mcp_tools :
  tools mcp =
  [({| tool_name := "hello"; tool_description := "Say hello to someone." |},
    hello_def)].
Proof. reflexivity. Qed.

Lemma mcp_resources :
  resources mcp =
  [({| resource_uri := "template://info";
       resource_description := "Get template information." |},
    get_info_def)].
Proof. reflexivity. Qed.

Lemma mcp_prompts :
  prompts mcp =
  [({| prompt_name := "greeting_prompt";
       prompt_description := "Generate a greeting prompt.";
       prompt_arguments := [{| arg_name := "name"; arg_required := true |}] |},
    greeting_prompt_def)].
Proof. reflexivity. Qed.

(** ** Requests leave the server object as it was *)

Lemma handle_server (srv : server) (req : request) : (handle srv req).2 = srv.
Proof. by destruct req. Qed.

Lemma serve_server (srv : server) (reqs : list request) :
  (serve srv reqs).2 = srv.
Proof.
  revert srv. induction reqs as [|req reqs IH]; intros srv; [done|].
  simpl. pose proof (handle_server srv req) as Hh.
  destruct (handle srv req) as [resp srv']. simpl in Hh. subst srv'.
  specialize (IH srv). by destruct (serve srv reqs) as [resps srv''].
Qed.

Lemma serve_all_server (srv : server) (sessions : list (list request)) :
  serve_all srv sessions = srv.
Proof.
  unfold serve_all. revert srv.
  induction sessions as [|reqs sessions IH]; intros srv; [done|].
  simpl. by rewrite serve_server.
Qed.

Lemma mcp_after_mcp (sessions : list (list request)) (reqs : list request) :
  mcp_after sessions reqs = mcp.
Proof. unfold mcp_after. by rewrite serve_server, serve_all_server. Qed.

(** ** Dispatch by name on [mcp] *)

Lemma registered_hello :
  registered tool_name "hello" (tools mcp) =
  Some ({| tool_name := "hello"; tool_description := "Say hello to someone." |},
        hello_def).
Proof. reflexivity. Qed.

Lemma registered_info :
  registered resource_uri "template://info" (resources mcp) =
  Some ({| resource_uri := "template://info";
           resource_description := "Get template information." |},
        get_info_def).
Proof. reflexivity. Qed.

Lemma registered_greeting_prompt :
  registered prompt_name "greeting_prompt" (prompts mcp) =
  Some ({| prompt_name := "greeting_prompt";
           prompt_description := "Generate a greeting prompt.";
           prompt_arguments := [{| arg_name := "name"; arg_required := true |}] |},
        greeting_prompt_def).
Proof. reflexivity. Qed.

Lemma call_tool_hello (s : string) :
  call_tool mcp "hello" {["name" := s]} = CallToolResult [TextContent (hello s)].
Proof. unfold call_tool. by rewrite registered_hello, call_hello. Qed.

Lemma call_tool_hello_omitted :
  call_tool mcp "hello" ∅ = CallToolResult [TextContent (hello "World")].
Proof. unfold call_tool. by rewrite registered_hello, call_hello_omitted. Qed.

Lemma read_resource_info :
  read_resource mcp "template://info" =
  ReadResourceResult [{| contents_uri := "template://info";
                         contents_text := get_info |}].
Proof. unfold read_resource. by rewrite registered_info, call_get_info. Qed.

Lemma get_prompt_greeting (s : string) :
  get_prompt mcp "greeting_prompt" {["name" := s]} =
  GetPromptResult [{| role := user;
                      content := TextContent (greeting_prompt s) |}].
Proof.
  unfold get_prompt. by rewrite registered_greeting_prompt, call_greeting_prompt.
Qed.

(** ** The claims *)

(** C1: for every string [s], calling the tool [hello] with arguments
    [{"name": s}] returns the text ["Hello, " + s + "!"]. *)
Theorem hello_tool_with_name (s : string) :
  (handle mcp (CallTool "hello" {["name" := s]})).1 =
  CallToolResult [TextContent ("Hello, " +:+ s +:+ "!")].
Proof. simpl. apply call_tool_hello. Qed.

(** C2: for every string [s], getting the prompt [greeting_prompt] with
    arguments [{"name": s}] returns exactly one message, whose role is
    [user] and whose text is
    ["Please write a friendly greeting for " + s + "."]. *)
Theorem greeting_prompt_with_name (s : string) :
  (handle mcp (GetPrompt "greeting_prompt" {["name" := s]})).1 =
  GetPromptResult
    [{| role := user;
        content :=
          TextContent ("Please write a friendly greeting for " +:+ s +:+ ".") |}].
Proof. simpl. apply get_prompt_greeting. Qed.

(** C3: every read of the resource [template://info], in any session and
    after any sequence of earlier operations, returns the fixed text
    ["This is a template MCP server. Customize it for your needs!"] and
    leaves the server object as it was. *)
Theorem read_info_fixed_and_pure
    (sessions : list (list request)) (reqs : list request) :
  let srv := mcp_after sessions reqs in
  handle srv (ReadResource "template://info") =
  (ReadResourceResult
     [{| contents_uri := "template://info";
         contents_text :=
           "This is a template MCP server. Customize it for your needs!" |}],
   srv).
Proof.
  simpl. rewrite mcp_after_mcp. unfold handle.
  by rewrite read_resource_info.
Qed.

(** C4: calling the tool [hello] with empty arguments returns the text
    ["Hello, World!"], the same result as calling it with
    [{"name": "World"}], because the parameter [name] is bound to its
    default ["World"] when the caller omits it. *)
Theorem hello_tool_default :
  (handle mcp (CallTool "hello" ∅)).1 = CallToolResult [TextContent "Hello, World!"]
  ∧ (handle mcp (CallTool "hello" ∅)).1 =
    (handle mcp (CallTool "hello" {["name" := "World"]})).1
  ∧ bind_params (fn_params hello_def) ∅ = inr {["name" := "World"]}.
Proof.
  simpl. rewrite call_tool_hello_omitted, call_tool_hello.
  split_and!; [done..|].
  rewrite lookup_empty. simpl. by rewrite insert_empty.
Qed.

(** C5: in every session and after any sequence of operations, listing
    tools returns a collection with exactly one tool named [hello], and the
    description of that tool is ["Say hello to someone."]. *)
Theorem list_tools_one_hello
    (sessions : list (list request)) (reqs : list request) :
  ∃ ts, (handle (mcp_after sessions reqs) ListTools).1 = ListToolsResult ts
        ∧ filter (λ t, tool_name t = "hello") ts =
          [{| tool_name := "hello";
              tool_description := "Say hello to someone." |}].
Proof.
  rewrite mcp_after_mcp. eexists. split; [reflexivity|].
  unfold list_tools. by rewrite mcp_tools.
Qed.

(** C6: listing prompts returns a collection that includes a prompt named
    [greeting_prompt], with description ["Generate a greeting prompt."],
    whose argument list has exactly one argument, named [name] and marked
    required. *)
Theorem list_prompts_greeting_prompt :
  ∃ ps p, (handle mcp ListPrompts).1 = ListPromptsResult ps
          ∧ p ∈ ps
          ∧ prompt_name p = "greeting_prompt"
          ∧ prompt_description p = "Generate a greeting prompt."
          ∧ prompt_arguments p = [{| arg_name := "name"; arg_required := true |}].
Proof.
  eexists _, _. split; [reflexivity|].
  unfold list_prompts. rewrite mcp_prompts. simpl.
  split; [apply list_elem_of_here|done].
Qed.

(** C7: in every session, listing resources returns a collection that
    includes a resource with URI [template://info] whose description is
    ["Get template information."]. *)
Theorem list_resources_info
    (sessions : list (list request)) (reqs : list request) :
  ∃ rs r, (handle (mcp_after sessions reqs) ListResources).1 =
          ListResourcesResult rs
          ∧ r ∈ rs
          ∧ resource_uri r = "template://info"
          ∧ resource_description r = "Get template information.".
Proof.
  rewrite mcp_after_mcp. eexists _, _. split; [reflexivity|].
  unfold list_resources. rewrite mcp_resources. simpl.
  split; [apply list_elem_of_here|done].
Qed.

(** C8: the registered functions [hello], [get_info] and [greeting_prompt]
    are total on their declared inputs: called with any string for [name]
    (for [hello] also with [name] omitted, for [get_info] with nothing),
    each returns a string and raises no exception. *)
Theorem registered_functions_total :
  (∀ s : string, ∃ r : string, call hello_def {["name" := s]} = inr r)
  ∧ (∃ r : string, call hello_def ∅ = inr r)
  ∧ (∃ r : string, call get_info_def ∅ = inr r)
  ∧ (∀ s : string, ∃ r : string, call greeting_prompt_def {["name" := s]} = inr r).
Proof.
  split_and!.
  - intros s. exists (hello s). apply call_hello.
  - exists (hello "World"). apply call_hello_omitted.
  - exists get_info. apply call_get_info.
  - intros s. exists (greeting_prompt s). apply call_greeting_prompt.
Qed.

(** C9: for every string [s], the result of calling the tool [hello], with
    [{}] or with [{"name": s}], has exactly one content item and that item
    is text content; reading the resource [template://info] yields exactly
    one content item too. *)
Theorem results_have_one_item (s : string) :
  (∃ t, (handle mcp (CallTool "hello" ∅)).1 = CallToolResult [TextContent t])
  ∧ (∃ t, (handle mcp (CallTool "hello" {["name" := s]})).1 =
          CallToolResult [TextContent t])
  ∧ (∃ c, (handle mcp (ReadResource "template://info")).1 =
          ReadResourceResult [c]).
Proof.
  simpl. split_and!.
  - eexists. apply call_tool_hello_omitted.
  - eexists. apply call_tool_hello.
  - eexists. apply read_resource_info.
Qed.

(** ** The functions leave the globals alone *)

Lemma invoke_hello (globals kw : gmap string string) :
  invoke hello_proc globals kw = (call hello_def kw, globals).
Proof.
  unfold invoke, call. simpl. case_decide; [|done].
  by destruct (kw !! "name").
Qed.

Lemma invoke_get_info (globals kw : gmap string string) :
  invoke get_info_proc globals kw = (call get_info_def kw, globals).
Proof. unfold invoke, call. simpl. by case_decide. Qed.

Lemma invoke_greeting_prompt (globals kw : gmap string string) :
  invoke greeting_prompt_proc globals kw = (call greeting_prompt_def kw, globals).
Proof.
  unfold invoke, call. simpl. case_decide; [|done].
  by destruct (kw !! "name").
Qed.

(** A request met by the process of [server.py] gets the response that
    depends on the request alone, and the process stays as it was. *)
Lemma handle_process (globals : gmap string string) (req : request) :
  Stateful.handle (mcp_process globals) req =
  ((handle mcp req).1, mcp_process globals).
Proof.
  destruct req as [|n kw| |u| |n kw]; try done; simpl.
  - unfold call_tool, registered, Stateful.entry.
    simpl. repeat rewrite filter_cons. repeat rewrite filter_nil. simpl.
    destruct (decide ("hello" = n)); simpl; [|done].
    unfold Stateful.run. rewrite invoke_hello. simpl.
    by destruct (call hello_def kw).
  - unfold read_resource, registered, Stateful.entry.
    simpl. repeat rewrite filter_cons. repeat rewrite filter_nil. simpl.
    destruct (decide ("template://info" = u)); simpl; [|done].
    unfold Stateful.run. rewrite invoke_get_info. simpl.
    by destruct (call get_info_def ∅).
  - unfold get_prompt, registered, Stateful.entry.
    simpl. repeat rewrite filter_cons. repeat rewrite filter_nil. simpl.
    destruct (decide ("greeting_prompt" = n)); simpl; [|done].
    unfold Stateful.run. rewrite invoke_greeting_prompt. simpl.
    by destruct (call greeting_prompt_def kw).
Qed.

Lemma serve_process (globals : gmap string string) (reqs : list request) :
  (Stateful.serve (mcp_process globals) reqs).2 = mcp_process globals.
Proof.
  induction reqs as [|req reqs IH]; [done|].
  simpl. rewrite handle_process.
  by destruct (Stateful.serve (mcp_process globals) reqs).
Qed.

Lemma serve_all_process (globals : gmap string string)
    (sessions : list (list request)) :
  Stateful.serve_all (mcp_process globals) sessions = mcp_process globals.
Proof.
  unfold Stateful.serve_all.
  induction sessions as [|reqs sessions IH]; [done|].
  simpl. by rewrite serve_process.
Qed.

Lemma process_after_process (globals : gmap string string)
    (sessions : list (list request)) (reqs : list request) :
  process_after globals sessions reqs = mcp_process globals.
Proof. unfold process_after. by rewrite serve_all_process, serve_process. Qed.

(** C10: every operation is deterministic: the same request gets the same
    response in two runs, whatever the global variables of the two
    processes hold, whatever sessions and requests came before, since
    handling a request reads no mutable state and leaves the process, its
    globals included, as it was. *)
Theorem operations_deterministic
    (globals1 globals2 : gmap string string)
    (sessions1 sessions2 : list (list request)) (reqs1 reqs2 : list request)
    (req : request) :
  let w1 := process_after globals1 sessions1 reqs1 in
  let w2 := process_after globals2 sessions2 reqs2 in
  (Stateful.handle w1 req).1 = (Stateful.handle w2 req).1
  ∧ (Stateful.handle w1 req).2 = w1.
Proof.
  simpl. rewrite !process_after_process, !handle_process. done.
Qed.

(** * Further properties of the three functions *)

(** ** Strings *)

Lemma length_append (s t : string) :
  String.length (s +:+ t) = String.length s + String.length t.
Proof. induction s as [|a s IH]; simpl; [done|]. by rewrite IH. Qed.

Lemma substring_append_l (s t : string) :
  String.substring 0 (String.length s) (s +:+ t) = s.
Proof.
  induction s as [|a s IH]; simpl.
  - by destruct t.
  - by rewrite IH.
Qed.

Lemma append_cancel_r (s1 s2 t : string) : s1 +:+ t = s2 +:+ t → s1 = s2.
Proof.
  intros Heq.
  assert (String.length s1 = String.length s2) as Hlen.
  { apply (f_equal String.length) in Heq. rewrite !length_append in Heq. lia. }
  rewrite <- (substring_append_l s1 t), <- (substring_append_l s2 t).
  by rewrite Heq, Hlen.
Qed.

(** ** Every keyword call of a one-parameter function *)

Lemma delete_empty_cases (x : string) (kw : gmap string string) :
  delete x kw = ∅ ↔ kw = ∅ ∨ ∃ v, kw = {[x := v]}.
Proof.
  split.
  - intros Hdel. destruct (kw !! x) as [v|] eqn:Hx.
    + right. exists v. rewrite <- (insert_delete_id kw x v Hx), Hdel.
      by rewrite insert_empty.
    + left. by rewrite <- (delete_id kw x Hx).
  - intros [->|[v ->]]; [apply delete_empty|apply delete_singleton_eq].
Qed.

Section OneParameter.

Variable f : function.
Variable x : string.
Variable d : option string.
Hypothesis Hsig : fn_params f = [Param x d].

Lemma call_unexpected (kw : gmap string string) :
  delete x kw ≠ ∅ →
  call f kw = raise (TypeError "got an unexpected keyword argument").
Proof.
  intros Hne. unfold call, unexpected. rewrite Hsig. simpl.
  by rewrite decide_False.
Qed.

Lemma call_returns_cases (kw : gmap string string) (r : string) :
  call f kw = inr r ↔
  (∃ v, kw = {[x := v]} ∧ fn_code f {[x := v]} = inr r)
  ∨ (∃ v, kw = ∅ ∧ d = Some v ∧ fn_code f {[x := v]} = inr r).
Proof.
  split.
  - intros Hcall. destruct (decide (delete x kw = ∅)) as [Hdel|Hdel].
    + apply delete_empty_cases in Hdel as [->|[v ->]].
      * right. destruct d as [v|] eqn:Hd.
        -- exists v. split_and!; [done..|].
           by rewrite <- (call_default f x (Some v) Hsig v).
        -- by rewrite (call_missing f x None Hsig) in Hcall.
      * left. exists v. split; [done|]. by rewrite <- (call_keyword f x d Hsig).
    + by rewrite call_unexpected in Hcall.
  - intros [(v & -> & Hr)|(v & -> & Hd & Hr)].
    + by rewrite (call_keyword f x d Hsig).
    + by rewrite (call_default f x d Hsig v Hd).
Qed.

End OneParameter.

(** ** The greeting texts *)

#[global] Instance hello_inj : Inj (=) (=) hello.
Proof.
  intros s1 s2 Heq. unfold hello in Heq. simpl in Heq.
  simplify_eq. by eapply append_cancel_r.
Qed.

#[global] Instance greeting_prompt_inj : Inj (=) (=) greeting_prompt.
Proof.
  intros s1 s2 Heq. unfold greeting_prompt in Heq. simpl in Heq.
  simplify_eq. by eapply append_cancel_r.
Qed.

(** X1: the greeting holds the name verbatim: the characters of
    [hello s] from position 7, as many as [s] has, are [s] itself. *)
Theorem hello_name_recoverable (s : string) :
  String.substring 7 (String.length s) (hello s) = s.
Proof. exact (substring_append_l s "!"). Qed.

(** X2: different names get different greetings from [hello]. *)
Theorem hello_distinct_names (s1 s2 : string) :
  s1 ≠ s2 → hello s1 ≠ hello s2.
Proof. intros Hne Heq. by apply Hne, (inj hello). Qed.

Lemma hello_distinct_names_witness : "Ada" ≠ "Bob" ∧ hello "Ada" ≠ hello "Bob".
Proof.
  split; [done|].
  apply (hello_distinct_names "Ada" "Bob"). done.
Defined.

(** X3: [hello s] is eight characters longer than [s]. *)
Theorem hello_length (s : string) :
  String.length (hello s) = String.length s + 8.
Proof. unfold hello. rewrite !length_append. simpl. lia. Qed.

(** X4: the prompt text holds the name verbatim: the characters of
    [greeting_prompt s] from position 37, as many as [s] has, are [s]
    itself. *)
Theorem greeting_prompt_name_recoverable (s : string) :
  String.substring 37 (String.length s) (greeting_prompt s) = s.
Proof. exact (substring_append_l s "."). Qed.

(** X5: different names get different prompt texts from
    [greeting_prompt]. *)
Theorem greeting_prompt_distinct_names (s1 s2 : string) :
  s1 ≠ s2 → greeting_prompt s1 ≠ greeting_prompt s2.
Proof. intros Hne Heq. by apply Hne, (inj greeting_prompt). Qed.

Lemma greeting_prompt_distinct_names_witness :
  "Alice" ≠ "Bob" ∧ greeting_prompt "Alice" ≠ greeting_prompt "Bob".
Proof.
  split; [done|].
  apply (greeting_prompt_distinct_names "Alice" "Bob"). done.
Defined.

(** X6: [greeting_prompt s] is 38 characters longer than [s]. *)
Theorem greeting_prompt_length (s : string) :
  String.length (greeting_prompt s) = String.length s + 38.
Proof. unfold greeting_prompt. rewrite !length_append. simpl. lia. Qed.

(** ** Which keyword calls return *)

(** Reads the value out of an equation between returned results. *)
Ltac returned H :=
  rewrite ?load_singleton in H; unfold mret, result_ret in H; simplify_eq/=.

(** X7: a keyword call of [hello] returns exactly when it passes nothing,
    and the result is then the greeting for ["World"], or passes [name]
    alone, and the result is then the greeting for that name. *)
Theorem hello_call_returns (kw : gmap string string) (r : string) :
  call hello_def kw = inr r ↔
  (kw = ∅ ∧ r = hello "World") ∨ (∃ s, kw = {["name" := s]} ∧ r = hello s).
Proof.
  rewrite (call_returns_cases hello_def "name" (Some "World")) by done.
  simpl. split.
  - intros [(v & -> & Hr)|(v & -> & Hd & Hr)]; returned Hr; eauto.
  - intros [[-> ->]|(s & -> & ->)]; [right|left];
      eexists; rewrite load_singleton; eauto.
Qed.

(** X8: a keyword call of [greeting_prompt] returns exactly when it passes
    [name] alone, and the result is then the prompt text for that name. *)
Theorem greeting_prompt_call_returns (kw : gmap string string) (r : string) :
  call greeting_prompt_def kw = inr r ↔
  ∃ s, kw = {["name" := s]} ∧ r = greeting_prompt s.
Proof.
  rewrite (call_returns_cases greeting_prompt_def "name" None) by done.
  simpl. split.
  - intros [(v & -> & Hr)|(v & _ & Hd & _)]; [|done].
    returned Hr. eauto.
  - intros (s & -> & ->). left. eexists. rewrite load_singleton. eauto.
Qed.

(** X9: a keyword call of [get_info] returns exactly when it passes
    nothing, and the result is then the fixed text. *)
Theorem get_info_call_returns (kw : gmap string string) (r : string) :
  call get_info_def kw = inr r ↔ kw = ∅ ∧ r = get_info.
Proof.
  unfold call, unexpected. simpl. split.
  - case_decide as Hkw; [|done]. intros Hr. by returned Hr.
  - intros [-> ->]. by rewrite decide_True.
Qed.

(** X10: a keyword call of one of the three functions that fails raises
    [TypeError]: the bodies read no variable that the signature leaves
    unbound. *)
Theorem calls_fail_with_TypeError
    (f : function) (kw : gmap string string) (e : exn) :
  f ∈ [hello_def; get_info_def; greeting_prompt_def] →
  call f kw = inl e →
  ∃ msg, e = TypeError msg.
Proof.
  intros Hf Hcall.
  apply elem_of_cons in Hf as [->|Hf]; [|apply elem_of_cons in Hf as [->|Hf]];
    [| |apply list_elem_of_singleton in Hf as ->].
  - destruct (decide (delete "name" kw = ∅)) as [Hkw|Hkw].
    + apply delete_empty_cases in Hkw as [->|[v ->]].
      * by rewrite call_hello_omitted in Hcall.
      * by rewrite call_hello in Hcall.
    + rewrite (call_unexpected hello_def "name" (Some "World")) in Hcall by done.
      injection Hcall as <-. eauto.
  - unfold call in Hcall. case_decide; [done|].
    injection Hcall as <-. eauto.
  - destruct (decide (delete "name" kw = ∅)) as [Hkw|Hkw].
    + apply delete_empty_cases in Hkw as [->|[v ->]].
      * rewrite (call_missing greeting_prompt_def "name" None) in Hcall by done.
        injection Hcall as <-. eauto.
      * by rewrite call_greeting_prompt in Hcall.
    + rewrite (call_unexpected greeting_prompt_def "name" None) in Hcall by done.
      injection Hcall as <-. eauto.
Qed.

Lemma calls_fail_with_TypeError_witness :
  ∃ msg, TypeError "missing required argument: name" = TypeError msg.
Proof.
  apply (calls_fail_with_TypeError greeting_prompt_def ∅).
  - do 2 apply list_elem_of_further. apply list_elem_of_here.
  - vm_compute. reflexivity.
Defined.

(** X11: omitting [name] in a call of [hello] gives the result of passing
    a name only when that name is ["World"]. *)
Theorem hello_omitted_only_World (s : string) :
  call hello_def ∅ = call hello_def {["name" := s]} ↔ s = "World".
Proof.
  rewrite call_hello_omitted, call_hello. split.
  - intros Heq. symmetry. apply (inj hello). congruence.
  - by intros ->.
Qed.

(** X12: a keyword call of [greeting_prompt] that does not pass [name]
    raises [TypeError], whatever else it passes. *)
Theorem greeting_prompt_needs_name (kw : gmap string string) :
  kw !! "name" = None →
  ∃ msg, call greeting_prompt_def kw = inl (TypeError msg).
Proof.
  intros Hname. unfold call, unexpected. simpl.
  case_decide; [|eauto]. rewrite Hname. eauto.
Qed.

Lemma greeting_prompt_needs_name_witness :
  ∃ msg, call greeting_prompt_def {["title" := "Dr"]} = inl (TypeError msg).
Proof.
  apply (greeting_prompt_needs_name {["title" := "Dr"]}).
  vm_compute. reflexivity.
Defined.
